(** * The GMP recipe (recipes/gmp/all/conanfile.py) as a state-and-error monad

    The recipe is a Python class whose methods mutate one [ConanFile] object
    (its options, settings, [cpp_info], ...) and call external tools.  A
    method is embedded as a function from the object to the object it leaves
    behind together with either a value or the exception it raised; the
    object is kept when an exception is raised, since Python does not roll
    back the assignments made before the [raise]. *)

From stdpp Require Import gmap strings list fin_maps pretty.
From Stdlib Require Import ZArith Ascii.

Set Warnings "-clear-no-such-hyp".

Open Scope Z_scope.
Open Scope string_scope.

(** ** Exceptions and results *)

Inductive error : Type :=
| ConanInvalidConfiguration (msg : string)
| ConanException (msg : string)
| KeyError (key : string)
| FileNotFoundError (path : string)
| SyntaxError (msg : string)
| AttributeError (type_name attr : string)
| ToolError (what : string).

Inductive result (A : Type) : Type :=
| Ok (a : A)
| Raise (e : error).
Arguments Ok {A} a.
Arguments Raise {A} e.

#[global] Instance Ok_inj {A} : Inj (=) (=) (@Ok A).
Proof. intros a b H. by injection H. Qed.

#[global] Instance Raise_inj {A} : Inj (=) (=) (@Raise A).
Proof. intros a b H. by injection H. Qed.

(** ** External tool invocations *)

Inductive command : Type :=
| CmdGet (url destination : string)
| CmdApplyPatches
| CmdVirtualBuildEnv
| CmdUnixPath (path : option string)
| CmdToolchainGenerate
| CmdConfigure
| CmdMake (target : option string)
| CmdInstall
| CmdCopy (pattern src dst : string)
| CmdRmdir (path : string)
| CmdRm (pattern folder : string)
| CmdFixAppleInstallName.

(** ** Published metadata ([cpp_info]) *)

#[projections(primitive)]
Record component : Type := {
  properties : gmap string string;
  libs : list string;
  requires : list string;
  system_libs : list string;
  names : gmap string string;
}.

Definition empty_component : component :=
  {| properties := ∅; libs := []; requires := []; system_libs := []; names := ∅ |}.

#[projections(primitive)]
Record cpp_info_t : Type := {
  cpp_properties : gmap string string;
  cpp_names : gmap string string;
  components : gmap string component;
}.

Definition empty_cpp_info : cpp_info_t :=
  {| cpp_properties := ∅; cpp_names := ∅; components := ∅ |}.

(** ** The recipe object *)

#[projections(primitive)]
Record conanfile : Type := {
  ref : string;
  version : string;
  settings : gmap string string;
  settings_build : option (gmap string string);
  options : gmap string string;
  info_options : gmap string string;
  conf : gmap string string;
  conan_data_sources : gmap string string;
  source_folder : string;
  package_folder : string;
  files : gmap string Z;
  cpp_info : cpp_info_t;
  configure_args : list string;
  win_bash : bool;
  tool_requirements : list string;
  log : list (command * option error);
}.

(** Field updates: every other field is copied. *)

Definition with_settings (f : gmap string string → gmap string string) (c : conanfile) : conanfile :=
  {| ref := ref c; version := version c; settings := f (settings c);
     settings_build := settings_build c; options := options c;
     info_options := info_options c; conf := conf c;
     conan_data_sources := conan_data_sources c;
     source_folder := source_folder c; package_folder := package_folder c;
     files := files c; cpp_info := cpp_info c;
     configure_args := configure_args c; win_bash := win_bash c;
     tool_requirements := tool_requirements c; log := log c |}.

Definition with_options (f : gmap string string → gmap string string) (c : conanfile) : conanfile :=
  {| ref := ref c; version := version c; settings := settings c;
     settings_build := settings_build c; options := f (options c);
     info_options := info_options c; conf := conf c;
     conan_data_sources := conan_data_sources c;
     source_folder := source_folder c; package_folder := package_folder c;
     files := files c; cpp_info := cpp_info c;
     configure_args := configure_args c; win_bash := win_bash c;
     tool_requirements := tool_requirements c; log := log c |}.

Definition with_info_options (f : gmap string string → gmap string string) (c : conanfile) : conanfile :=
  {| ref := ref c; version := version c; settings := settings c;
     settings_build := settings_build c; options := options c;
     info_options := f (info_options c); conf := conf c;
     conan_data_sources := conan_data_sources c;
     source_folder := source_folder c; package_folder := package_folder c;
     files := files c; cpp_info := cpp_info c;
     configure_args := configure_args c; win_bash := win_bash c;
     tool_requirements := tool_requirements c; log := log c |}.

Definition with_files (f : gmap string Z → gmap string Z) (c : conanfile) : conanfile :=
  {| ref := ref c; version := version c; settings := settings c;
     settings_build := settings_build c; options := options c;
     info_options := info_options c; conf := conf c;
     conan_data_sources := conan_data_sources c;
     source_folder := source_folder c; package_folder := package_folder c;
     files := f (files c); cpp_info := cpp_info c;
     configure_args := configure_args c; win_bash := win_bash c;
     tool_requirements := tool_requirements c; log := log c |}.

Definition with_cpp_info (f : cpp_info_t → cpp_info_t) (c : conanfile) : conanfile :=
  {| ref := ref c; version := version c; settings := settings c;
     settings_build := settings_build c; options := options c;
     info_options := info_options c; conf := conf c;
     conan_data_sources := conan_data_sources c;
     source_folder := source_folder c; package_folder := package_folder c;
     files := files c; cpp_info := f (cpp_info c);
     configure_args := configure_args c; win_bash := win_bash c;
     tool_requirements := tool_requirements c; log := log c |}.

Definition with_configure_args (f : list string → list string) (c : conanfile) : conanfile :=
  {| ref := ref c; version := version c; settings := settings c;
     settings_build := settings_build c; options := options c;
     info_options := info_options c; conf := conf c;
     conan_data_sources := conan_data_sources c;
     source_folder := source_folder c; package_folder := package_folder c;
     files := files c; cpp_info := cpp_info c;
     configure_args := f (configure_args c); win_bash := win_bash c;
     tool_requirements := tool_requirements c; log := log c |}.

Definition with_win_bash (f : bool → bool) (c : conanfile) : conanfile :=
  {| ref := ref c; version := version c; settings := settings c;
     settings_build := settings_build c; options := options c;
     info_options := info_options c; conf := conf c;
     conan_data_sources := conan_data_sources c;
     source_folder := source_folder c; package_folder := package_folder c;
     files := files c; cpp_info := cpp_info c;
     configure_args := configure_args c; win_bash := f (win_bash c);
     tool_requirements := tool_requirements c; log := log c |}.

Definition with_tool_requirements (f : list string → list string) (c : conanfile) : conanfile :=
  {| ref := ref c; version := version c; settings := settings c;
     settings_build := settings_build c; options := options c;
     info_options := info_options c; conf := conf c;
     conan_data_sources := conan_data_sources c;
     source_folder := source_folder c; package_folder := package_folder c;
     files := files c; cpp_info := cpp_info c;
     configure_args := configure_args c; win_bash := win_bash c;
     tool_requirements := f (tool_requirements c); log := log c |}.

Definition with_log (f : list (command * option error) → list (command * option error)) (c : conanfile) : conanfile :=
  {| ref := ref c; version := version c; settings := settings c;
     settings_build := settings_build c; options := options c;
     info_options := info_options c; conf := conf c;
     conan_data_sources := conan_data_sources c;
     source_folder := source_folder c; package_folder := package_folder c;
     files := files c; cpp_info := cpp_info c;
     configure_args := configure_args c; win_bash := win_bash c;
     tool_requirements := tool_requirements c; log := f (log c) |}.

(** The tools invoked so far, oldest first. *)
Definition commands (c : conanfile) : list command := (log c).*1.

(** ** The monad of recipe methods *)

Definition M (A : Type) : Type := conanfile → conanfile * result A.

Definition ret {A} (a : A) : M A := λ c, (c, Ok a).

Definition bind {A B} (m : M A) (k : A → M B) : M B := λ c,
  match m c with
  | (c', Ok a) => k a c'
  | (c', Raise e) => (c', Raise e)
  end.

Definition raise {A} (e : error) : M A := λ c, (c, Raise e).

Definition ask : M conanfile := λ c, (c, Ok c).

Definition modify (f : conanfile → conanfile) : M unit := λ c, (f c, Ok tt).

Definition when (b : bool) (m : M unit) : M unit := if b then m else ret tt.

Declare Scope recipe_scope.
Delimit Scope recipe_scope with recipe.
Notation "x <- m ;; k" := (bind m (λ x, k))
  (at level 100, m at next level, right associativity) : recipe_scope.
Notation "m ;; k" := (bind m (λ _, k))
  (at level 100, right associativity) : recipe_scope.
Open Scope recipe_scope.

(** The object a method leaves behind, and how it ended. *)
Definition state_after {A} (m : M A) (c : conanfile) : conanfile := fst (m c).
Definition outcome {A} (m : M A) (c : conanfile) : result A := snd (m c).

(** ** Conan's option objects

    Conan stores every option value as the string [str(value)].  An option
    tested in a condition is falsy when its lower-cased text is one of
    false, none, 0, off or the empty string. *)

Definition lower_ascii (a : ascii) : ascii :=
  let n := N_of_ascii a in
  if ((65 <=? n) && (n <=? 90))%N then ascii_of_N (n + 32) else a.

Fixpoint lower (s : string) : string :=
  match s with
  | EmptyString => EmptyString
  | String a s' => String (lower_ascii a) (lower s')
  end.

Definition falsey_options : list string := ["false"; "none"; "0"; "off"; ""].

Definition option_truth (v : string) : bool :=
  negb (bool_decide (lower v ∈ falsey_options)).

(** What a condition or [yes_no] may receive: an option object, or the
    Python default handed to [get_safe]. *)
Inductive pyval : Type :=
| POption (v : string)
| PBool (b : bool)
| PNone.

Definition truth (v : pyval) : bool :=
  match v with
  | POption s => option_truth s
  | PBool b => b
  | PNone => false
  end.

(** The first line of Conan's message for an unknown option. *)
Definition option_not_exist_msg (name : string) : string :=
  "option '" +:+ name +:+ "' doesn't exist".

(** [self.options.<name>]: reading an option that does not exist raises. *)
Definition option_attr (name : string) : M string := λ c,
  match options c !! name with
  | Some v => (c, Ok v)
  | None => (c, Raise (ConanException (option_not_exist_msg name)))
  end.

(** [self.options.get_safe(name, default)]. *)
Definition get_safe (name : string) (default : pyval) : M pyval := λ c,
  match options c !! name with
  | Some v => (c, Ok (POption v))
  | None => (c, Ok default)
  end.

(** [self.options.rm_safe(name)]. *)
Definition rm_safe (name : string) : M unit :=
  modify (with_options (delete name)).

(** [self.settings.rm_safe(name)]. *)
Definition settings_rm_safe (name : string) : M unit :=
  modify (with_settings (delete name)).

(** [self.settings.<name> == text]. *)
Definition setting_is (name text : string) (c : conanfile) : bool :=
  bool_decide (settings c !! name = Some text).

(** ** The external collaborators

    Conan's platform predicates and the tools the recipe runs are not part of
    the recipe.  A tool sees the invocations made so far, each with what it
    raised, and the file modes; it may change the files, and it may raise.

    The recipe asks for Conan 1.56.0 or later, and the two lines of Conan
    differ on [del] of an option that does not exist: Conan 1.x ignores it,
    Conan 2 raises.  [strict_delete] tells which; reading such an option
    raises in both. *)

Class Tools : Type := {
  strict_delete : bool;
  is_msvc : gmap string string → bool;
  is_apple_os : gmap string string → bool;
  run_tool : list (command * option error) → command → gmap string Z →
             gmap string Z * option error;
}.

(** The platform predicates as Conan defines them. *)
Definition conan_is_msvc (s : gmap string string) : bool :=
  bool_decide (s !! "compiler" = Some "Visual Studio"
               ∨ s !! "compiler" = Some "msvc").

Definition conan_is_apple_os (s : gmap string string) : bool :=
  match s !! "os" with
  | Some os => bool_decide (os ∈ ["Macos"; "iOS"; "watchOS"; "tvOS"])
  | None => false
  end.

(** Conan 1.x, with tools that always succeed and touch no file. *)
Definition quiet_tools : Tools :=
  {| strict_delete := false;
     is_msvc := conan_is_msvc;
     is_apple_os := conan_is_apple_os;
     run_tool := λ _ _ fs, (fs, None) |}.

(** Tools of which exactly the [n]-th invocation fails, with [e]. *)
Definition failing_tools (n : nat) (e : error) : Tools :=
  {| strict_delete := false;
     is_msvc := conan_is_msvc;
     is_apple_os := conan_is_apple_os;
     run_tool := λ h _ fs, (fs, if decide (length h = n) then Some e else None) |}.

(** Conan 2, with the same tools as [quiet_tools]. *)
Definition conan2_tools : Tools :=
  {| strict_delete := true;
     is_msvc := conan_is_msvc;
     is_apple_os := conan_is_apple_os;
     run_tool := λ _ _ fs, (fs, None) |}.

(** ** The recipe's declarations *)

Definition py_bools : list string := ["True"; "False"].

(** [options]: every declared option with its admissible values. *)
Definition options_decl : list (string * list string) :=
  [ ("shared", py_bools);
    ("fPIC", py_bools);
    ("assembly", py_bools);
    ("cxx", py_bools);
    ("fat", py_bools);
    ("alloca", ["alloca"; "malloc-reentrant"; "malloc-notreentrant";
                "reentrant"; "notreentrant"; "debug"]);
    ("fft", py_bools);
    ("old_fft_full", py_bools);
    ("assertions", py_bools);
    ("profiling", ["prof"; "gprof"; "instrument"; "None"]);
    ("nails", "True" :: map (λ n : nat, pretty n) (seq 0 64));
    ("minithres", py_bools);
    ("fake_cpuid", py_bools);
    ("maintainer_mode", py_bools);
    ("with_aix_soname", ["aix"; "svr4"; "both"]);
    ("with_gnu_ld", py_bools);
    ("run_checks", py_bools) ].

Definition default_options : list (string * string) :=
  [ ("shared", "False");
    ("fPIC", "False");
    ("assembly", "True");
    ("cxx", "False");
    ("fat", "False");
    ("alloca", "reentrant");
    ("fft", "True");
    ("old_fft_full", "False");
    ("assertions", "False");
    ("profiling", "None");
    ("nails", "0");
    ("minithres", "False");
    ("fake_cpuid", "False");
    ("maintainer_mode", "False");
    ("with_aix_soname", "aix");
    ("with_gnu_ld", "False");
    ("run_checks", "True") ].

Definition declared (name : string) : bool :=
  bool_decide (name ∈ options_decl.*1).

(** The options Conan hands to the recipe: each declared option, at an
    admissible value. *)
Definition admissible (o : gmap string string) : bool :=
  bool_decide (dom o = list_to_set options_decl.*1)
  && forallb (λ d : string * list string,
       match o !! d.1 with
       | Some v => bool_decide (v ∈ d.2)
       | None => false
       end) options_decl.

(** A sample recipe object as Conan creates it, before any method has run:
    [self.info.options] starts as a copy of the options, and the fetched
    configure script is a regular file of mode 0o100644. *)
Definition fresh (s o : gmap string string) : conanfile :=
  {| ref := "gmp/6.3.0"; version := "6.3.0";
     settings := s; settings_build := None;
     options := o; info_options := o;
     conf := ∅;
     conan_data_sources := {[ "6.3.0" := "https://gmplib.org/download/gmp/gmp-6.3.0.tar.xz" ]};
     source_folder := "src"; package_folder := "package";
     files := {[ "src/configure" := 33188 ]};
     cpp_info := empty_cpp_info;
     configure_args := []; win_bash := false; tool_requirements := [];
     log := [] |}.

Definition linux_gcc : gmap string string :=
  list_to_map [("os", "Linux"); ("arch", "x86_64"); ("compiler", "gcc");
               ("compiler.version", "12"); ("compiler.libcxx", "libstdc++11");
               ("build_type", "Release")].

Definition defaults : gmap string string := list_to_map default_options.

(** ** Small helpers of the Python runtime *)

(** [os.path.join] on two components, the second one relative. *)
Definition ends_with_slash (a : string) : bool :=
  match last (String.list_ascii_of_string a) with
  | Some ch => bool_decide (ch = "/"%char)
  | None => false
  end.

Definition path_join (a b : string) : string :=
  if bool_decide (a = "") then b
  else if ends_with_slash a then a +:+ b
  else a +:+ "/" +:+ b.

(** [stat.S_IEXEC], 0o100. *)
Definition S_IEXEC : Z := 64.

(** [os.stat(path).st_mode]. *)
Definition os_stat (path : string) : M Z := λ c,
  match files c !! path with
  | Some mode => (c, Ok mode)
  | None => (c, Raise (FileNotFoundError path))
  end.

(** [os.chmod(path, mode)]: the twelve permission bits are replaced, the
    file-type bits of [st_mode] stay. *)
Definition chmod_mode (old mode : Z) : Z :=
  Z.lor (Z.land old (Z.lnot 4095)) (Z.land mode 4095).

Definition os_chmod (path : string) (mode : Z) : M unit := λ c,
  match files c !! path with
  | Some old => (with_files (<[path := chmod_mode old mode]>) c, Ok tt)
  | None => (c, Raise (FileNotFoundError path))
  end.

Definition test (p : conanfile → bool) : M bool := λ c, (c, Ok (p c)).

(** [str(self.settings.arch)]. *)
Definition arch_text : M string := λ c,
  (c, Ok (default "None" (settings c !! "arch"))).

Definition setting_in (name : string) (l : list string) (c : conanfile) : bool :=
  match settings c !! name with
  | Some v => bool_decide (v ∈ l)
  | None => false
  end.

Definition yes_no (v : pyval) : string := if truth v then "yes" else "no".

(** ** Writing [cpp_info] *)

Definition set_property (k v : string) (i : cpp_info_t) : cpp_info_t :=
  {| cpp_properties := <[k := v]> (cpp_properties i);
     cpp_names := cpp_names i; components := components i |}.

Definition set_name (k v : string) (i : cpp_info_t) : cpp_info_t :=
  {| cpp_properties := cpp_properties i;
     cpp_names := <[k := v]> (cpp_names i); components := components i |}.

(** [cpp_info.components[name]] creates the component on first use. *)
Definition component_of (name : string) (i : cpp_info_t) : component :=
  default empty_component (components i !! name).

Definition on_component (name : string) (f : component → component) (i : cpp_info_t) : cpp_info_t :=
  {| cpp_properties := cpp_properties i; cpp_names := cpp_names i;
     components := <[name := f (component_of name i)]> (components i) |}.

Definition comp_set_property (k v : string) (x : component) : component :=
  {| properties := <[k := v]> (properties x); libs := libs x;
     requires := requires x; system_libs := system_libs x; names := names x |}.

Definition comp_set_libs (l : list string) (x : component) : component :=
  {| properties := properties x; libs := l;
     requires := requires x; system_libs := system_libs x; names := names x |}.

Definition comp_set_requires (l : list string) (x : component) : component :=
  {| properties := properties x; libs := libs x;
     requires := l; system_libs := system_libs x; names := names x |}.

Definition comp_set_system_libs (l : list string) (x : component) : component :=
  {| properties := properties x; libs := libs x;
     requires := requires x; system_libs := l; names := names x |}.

Definition comp_set_name (k v : string) (x : component) : component :=
  {| properties := properties x; libs := libs x;
     requires := requires x; system_libs := system_libs x;
     names := <[k := v]> (names x) |}.

Definition cpp (f : cpp_info_t → cpp_info_t) : M unit := modify (with_cpp_info f).

Section Recipe.
Context {T : Tools}.

(** Run an external tool: the invocation is logged with what the tool
    raised, the tool may change the files, and what it raises is raised
    here. *)
Definition invoke (cmd : command) : M unit := λ c,
  let '(fs, r) := run_tool (log c) cmd (files c) in
  let c' := with_log (λ l, (l ++ [(cmd, r)])%list) (with_files (λ _, fs) c) in
  match r with
  | Some e => (c', Raise e)
  | None => (c', Ok tt)
  end.

(** What [del] of a missing option does. *)
Definition del_missing (name : string) : M unit :=
  if strict_delete
  then raise (ConanException (option_not_exist_msg name))
  else ret tt.

(** [del self.options.<name>]. *)
Definition del_option (name : string) : M unit := λ c,
  match options c !! name with
  | Some _ => (with_options (delete name) c, Ok tt)
  | None => del_missing name c
  end.

(** [del self.info.options.<name>]. *)
Definition del_info_option (name : string) : M unit := λ c,
  match info_options c !! name with
  | Some _ => (with_info_options (delete name) c, Ok tt)
  | None => del_missing name c
  end.

Definition tool_requires (r : string) : M unit :=
  modify (with_tool_requirements (λ l, (l ++ [r])%list)).

Definition settings_build_of (c : conanfile) : gmap string string :=
  default (settings c) (settings_build c).

Definition config_options : M unit :=
  windows <- test (setting_is "os" "Windows") ;;
  when windows (del_option "fPIC") ;;
  x86 <- test (setting_in "arch" ["x86"; "x86_64"]) ;;
  when (negb x86) (del_option "enable_fat").

Definition configure : M unit :=
  shared <- option_attr "shared" ;;
  when (option_truth shared) (rm_safe "fPIC") ;;
  fat <- get_safe "enable_fat" PNone ;;
  when (truth fat) (del_option "enable_assembly") ;;
  cxx <- option_attr "enable_cxx" ;;
  when (negb (option_truth cxx))
    (settings_rm_safe "compiler.libcxx" ;;
     settings_rm_safe "compiler.cppstd").

Definition package_id : M unit :=
  del_info_option "run_checks".

Definition validate : M unit :=
  msvc <- test (λ c, is_msvc (settings c)) ;;
  if msvc then
    shared <- option_attr "shared" ;;
    if option_truth shared then
      c <- ask ;;
      raise (ConanInvalidConfiguration
        (ref c +:+ " cannot be built as a shared library using Visual Studio: some error occurs at link time"))
    else ret tt
  else ret tt.

Definition build_requirements : M unit :=
  windows <- test (λ c, bool_decide (settings_build_of c !! "os" = Some "Windows")) ;;
  when windows
    (modify (with_win_bash (λ _, true)) ;;
     bash <- test (λ c, match conf c !! "tools.microsoft.bash:path" with
                        | Some p => negb (bool_decide (p = ""))
                        | None => false
                        end) ;;
     when (negb bash) (tool_requires "msys2/cci.latest")) ;;
  msvc <- test (λ c, is_msvc (settings c)) ;;
  when msvc
    (tool_requires "yasm/1.3.0" ;;
     tool_requires "automake/1.16.5").

Definition source : M unit :=
  c <- ask ;;
  match conan_data_sources c !! version c with
  | Some url => invoke (CmdGet url (source_folder c))
  | None => raise (KeyError (version c))
  end.

(** The lookup of the yasm machine by architecture. *)
Definition yasm_machine (arch : string) : option string :=
  if bool_decide (arch = "x86") then Some "x86"
  else if bool_decide (arch = "x86_64") then Some "amd64"
  else None.

(** [generate]: the tools it runs, the configure arguments it hands to the
    toolchain and the errors it raises itself.  Lines 409 to 413 and 425 to
    430 only append to lists and define variables of the toolchain and
    environment objects, which live inside the method and are handed to
    [tc.generate]; they are part of that invocation here.  [unix_path] is an
    external function; [conf.get] gives it [None] where the key is not set. *)
Definition generate : M unit :=
  invoke CmdVirtualBuildEnv ;;
  pic <- get_safe "fPIC" (PBool true) ;;
  asm <- get_safe "enable_assembly" (PBool false) ;;
  fat <- get_safe "enable_fat" (PBool false) ;;
  cxx <- option_attr "enable_cxx" ;;
  modify (with_configure_args (λ a, (a ++
    [ "--with-pic=" +:+ yes_no pic;
      "--enable-assembly=" +:+ yes_no asm;
      "--enable-fat=" +:+ yes_no fat;
      "--enable-cxx=" +:+ yes_no (POption cxx) ])%list)) ;;
  windows <- test (λ c, bool_decide (settings_build_of c !! "os" = Some "Windows")) ;;
  when windows (modify (with_configure_args (λ a, (a ++ ["--srcdir=../src"])%list))) ;;
  msvc <- test (λ c, is_msvc (settings c)) ;;
  when msvc (modify (with_configure_args (λ a, (a ++
    [ "ac_cv_c_restrict=restrict";
      "gmp_cv_asm_label_suffix=:";
      "lt_cv_sys_global_symbol_pipe=cat" ])%list))) ;;
  msvc' <- test (λ c, is_msvc (settings c)) ;;
  when msvc'
    (c <- ask ;;
     invoke (CmdUnixPath (Some (path_join (source_folder c) "yasm_wrapper.sh"))) ;;
     arch <- arch_text ;;
     match yasm_machine arch with
     | Some _ => ret tt
     | None => raise (KeyError arch)
     end ;;
     invoke (CmdUnixPath (conf c !! "user.automake:lib-wrapper")) ;;
     invoke (CmdUnixPath (Some (path_join (source_folder c) "dumpbin_nm.py")))) ;;
  invoke CmdToolchainGenerate.

Definition _patch_sources : M unit :=
  invoke CmdApplyPatches ;;
  apple <- test (λ c, is_apple_os (settings c)) ;;
  when apple
    (c <- ask ;;
     let configure_file := path_join (source_folder c) "configure" in
     configure_stats <- os_stat configure_file ;;
     os_chmod configure_file (Z.lor configure_stats S_IEXEC)).

Definition build : M unit :=
  _patch_sources ;;
  invoke CmdConfigure ;;
  invoke (CmdMake None) ;;
  run_checks <- option_attr "run_checks" ;;
  when (option_truth run_checks) (invoke (CmdMake (Some "check"))).

Definition package : M unit :=
  c <- ask ;;
  invoke (CmdCopy "COPYINGv2" (source_folder c) (path_join (package_folder c) "licenses")) ;;
  invoke (CmdCopy "COPYING.LESSERv3" (source_folder c) (path_join (package_folder c) "licenses")) ;;
  invoke CmdInstall ;;
  invoke (CmdRmdir (path_join (path_join (package_folder c) "lib") "pkgconfig")) ;;
  invoke (CmdRmdir (path_join (package_folder c) "share")) ;;
  invoke (CmdRm "*.la" (path_join (package_folder c) "lib")) ;;
  invoke CmdFixAppleInstallName.

Definition package_info : M unit :=
  cpp (set_property "pkg_config_name" "gmp-all-do-not-use") ;;
  cpp (on_component "libgmp" (comp_set_property "pkg_config_name" "gmp")) ;;
  cpp (on_component "libgmp" (comp_set_libs ["gmp"])) ;;
  cxx <- option_attr "enable_cxx" ;;
  when (option_truth cxx)
    (cpp (on_component "gmpxx" (comp_set_property "pkg_config_name" "gmpxx")) ;;
     cpp (on_component "gmpxx" (comp_set_libs ["gmpxx"])) ;;
     cpp (on_component "gmpxx" (comp_set_requires ["libgmp"])) ;;
     windows <- test (setting_is "os" "Windows") ;;
     when (negb windows) (cpp (on_component "gmpxx" (comp_set_system_libs ["m"])))) ;;
  cpp (set_name "pkg_config" "gmp-all-do-not-use") ;;
  cpp (on_component "libgmp" (comp_set_name "cmake_find_package" "GMP")) ;;
  cpp (on_component "libgmp" (comp_set_name "cmake_find_package_multi" "GMP")) ;;
  cxx' <- option_attr "enable_cxx" ;;
  when (option_truth cxx')
    (cpp (on_component "gmpxx" (comp_set_name "cmake_find_package" "GMPXX")) ;;
     cpp (on_component "gmpxx" (comp_set_name "cmake_find_package_multi" "GMPXX"))).

(** The methods Conan calls after [configure]. *)
Definition later_methods : list (M unit) :=
  [ package_id; validate; build_requirements; source; generate; build;
    package; package_info ].

End Recipe.

(** ** Loading the module: the class body

    Python compiles the whole file before it runs any of it.  A [for] clause
    binds its target, so the target must be an assignable expression: a
    name, an attribute, a subscript, or a tuple or list of such. *)

#[warnings="-register-all"]
Inductive py_expr : Type :=
| EName (id : string)
| EConst (text : string)
| ETuple (items : list py_expr)
| EAttribute (obj : py_expr) (attr : string)
| ESubscript (obj index : py_expr)
| EStarred (e : py_expr)
| ECall (f : py_expr) (args : list py_expr).

Fixpoint assignable (e : py_expr) : bool :=
  match e with
  | EName _ => true
  | EConst _ => false
  | ETuple items => forallb assignable items
  | EAttribute _ _ => true
  | ESubscript _ _ => true
  | EStarred e' => assignable e'
  | ECall _ _ => false
  end.

(** The binding positions of the class body, in source order: the targets
    of its assignments, and the [for] target of the comprehension that
    builds [options_description]. *)
Definition options_description_target : py_expr :=
  ETuple [EName "option"; ECall (EName "_format_description") [EName "description"]].

Definition class_body_targets : list py_expr :=
  [ EName "name"; EName "license"; EName "url"; EName "homepage";
    EName "description"; EName "topics"; EName "settings"; EName "options";
    EName "default_options"; EName "options_description";
    options_description_target ].

Definition compile_module : result unit :=
  if forallb assignable class_body_targets then Ok tt
  else Raise (SyntaxError "cannot assign to function call").

(** Python objects met while [_format_description] runs. *)
Inductive pyobj : Type :=
| PyStr (s : string)
| PyBuiltinMethod (self : pyobj) (name : string).

Definition str_methods : list string :=
  [ "capitalize"; "casefold"; "center"; "count"; "encode"; "endswith";
    "expandtabs"; "find"; "format"; "format_map"; "index"; "isalnum";
    "isalpha"; "isascii"; "isdecimal"; "isdigit"; "isidentifier"; "islower";
    "isnumeric"; "isprintable"; "isspace"; "istitle"; "isupper"; "join";
    "ljust"; "lower"; "lstrip"; "maketrans"; "partition"; "removeprefix";
    "removesuffix"; "replace"; "rfind"; "rindex"; "rjust"; "rpartition";
    "rsplit"; "rstrip"; "split"; "splitlines"; "startswith"; "strip";
    "swapcase"; "title"; "translate"; "upper"; "zfill" ].

(** Attribute lookup.  A bound built-in method has only its special
    attributes; [__self__] is the object it is bound to. *)
Definition getattr (o : pyobj) (attr : string) : result pyobj :=
  match o with
  | PyStr _ =>
      if bool_decide (attr ∈ str_methods) then Ok (PyBuiltinMethod o attr)
      else Raise (AttributeError "str" attr)
  | PyBuiltinMethod self name =>
      if bool_decide (attr = "__self__") then Ok self
      else if bool_decide (attr = "__name__") then Ok (PyStr name)
      else if bool_decide (attr = "__qualname__") then Ok (PyStr ("str." +:+ name))
      else Raise (AttributeError "builtin_function_or_method" attr)
  end.

Section FormatDescription.
(** What follows the attribute lookups in the body: the call with
    ['\n', 1], the unpacking, [dedent] and [fill]. *)
Variable rest_of_body : pyobj → result string.

Definition _format_description (description : string) : result string :=
  match getattr (PyStr description) "strip" with
  | Raise e => Raise e
  | Ok strip =>
      match getattr strip "lsplit" with
      | Raise e => Raise e
      | Ok lsplit => rest_of_body lsplit
      end
  end.
End FormatDescription.

(** ** Vocabulary of the properties *)

(** Whether the [shared] option is set and true. *)
Definition shared_enabled (c : conanfile) : bool :=
  match options c !! "shared" with
  | Some v => option_truth v
  | None => false
  end.

Definition msvc_shared_message (c : conanfile) : string :=
  ref c +:+ " cannot be built as a shared library using Visual Studio: some error occurs at link time".

(** The tools of [build], in the order of the method's text. *)
Definition all_commands : list command :=
  [CmdApplyPatches; CmdConfigure; CmdMake None; CmdMake (Some "check")].

(** What Conan hashes into the package ID: the settings and the options of
    [self.info], as [package_id] leaves them. *)
Definition package_ID (digest : gmap string string → gmap string string → string)
    (c : conanfile) : string :=
  digest (settings c) (info_options c).

(** The [libgmp] entry of the published metadata. *)
Definition libgmp_published (i : cpp_info_t) : Prop :=
  is_Some (components i !! "libgmp")
  ∧ libs (component_of "libgmp" i) = ["gmp"]
  ∧ properties (component_of "libgmp" i) !! "pkg_config_name" = Some "gmp"
  ∧ cpp_properties i !! "pkg_config_name" = Some "gmp-all-do-not-use".

(** A method that never writes the options. *)
Definition keeps_options (m : M unit) : Prop :=
  ∀ c, options (state_after m c) = options c.

(** ** Sample configurations *)

Definition msvc_shared : conanfile :=
  fresh (<["compiler" := "msvc"]> linux_gcc) (<["shared" := "True"]> defaults).

Definition linux_defaults : conanfile := fresh linux_gcc defaults.

Definition shared_linux : conanfile :=
  fresh linux_gcc (<["shared" := "True"]> defaults).

Definition cxx_enabled : conanfile :=
  fresh linux_gcc (<["cxx" := "True"]> defaults).

Definition armv8_defaults : conanfile :=
  fresh (<["arch" := "armv8"]> linux_gcc) defaults.

Definition macos_defaults : conanfile :=
  fresh (<["os" := "Macos"]> linux_gcc) defaults.

Definition windows_defaults : conanfile :=
  fresh (<["os" := "Windows"]> linux_gcc) defaults.

Definition no_checks : conanfile :=
  fresh linux_gcc (<["run_checks" := "False"]> defaults).

Definition fat_enabled : conanfile :=
  fresh linux_gcc (<["fat" := "True"]> defaults).

Definition configure_fails : Tools :=
  failing_tools 1 (ToolError "configure: error: no acceptable C compiler").

(** ** Vocabulary of the further properties *)

(** Whether the build machine runs Windows. *)
Definition build_on_windows (c : conanfile) : bool :=
  bool_decide (default (settings c) (settings_build c) !! "os" = Some "Windows").

(** Whether [tools.microsoft.bash:path] is configured, and not empty. *)
Definition bash_configured (c : conanfile) : bool :=
  match conf c !! "tools.microsoft.bash:path" with
  | Some p => negb (bool_decide (p = ""))
  | None => false
  end.

(** The tools of [package], in the order of the method's text. *)
Definition package_commands (c : conanfile) : list command :=
  [ CmdCopy "COPYINGv2" (source_folder c) (path_join (package_folder c) "licenses");
    CmdCopy "COPYING.LESSERv3" (source_folder c) (path_join (package_folder c) "licenses");
    CmdInstall;
    CmdRmdir (path_join (path_join (package_folder c) "lib") "pkgconfig");
    CmdRmdir (path_join (package_folder c) "share");
    CmdRm "*.la" (path_join (package_folder c) "lib");
    CmdFixAppleInstallName ].

Definition msvc_defaults : conanfile :=
  fresh (<["compiler" := "msvc"]> (<["os" := "Windows"]> linux_gcc)) defaults.

Definition macos_without_configure : conanfile :=
  {| ref := "gmp/6.3.0"; version := "6.3.0";
     settings := <["os" := "Macos"]> linux_gcc; settings_build := None;
     options := defaults; info_options := defaults;
     conf := ∅; conan_data_sources := ∅;
     source_folder := "src"; package_folder := "package";
     files := ∅; cpp_info := empty_cpp_info;
     configure_args := []; win_bash := false; tool_requirements := [];
     log := [] |}.

Section FurtherVocabulary.
Context {T : Tools}.

(** The methods that only read and write the recipe object. *)
Definition bookkeeping_methods : list (M unit) :=
  [ config_options; configure; package_id; validate; build_requirements;
    package_info ].

End FurtherVocabulary.

(** ** Tactics: running a method step by step *)

Ltac simp_state :=
  cbv [with_settings with_options with_info_options with_files with_cpp_info
       with_configure_args with_win_bash with_tool_requirements with_log
       ref version settings settings_build options info_options conf
       conan_data_sources source_folder package_folder files cpp_info
       configure_args win_bash tool_requirements log
       setting_is setting_in settings_build_of] in *.

Ltac inv_run H := cbv beta in H; simplify_eq.

Ltac step :=
  simp_state;
  match goal with
  | H : ret _ _ = _ |- _ => unfold ret in H; inv_run H
  | H : raise _ _ = _ |- _ => unfold raise in H; inv_run H
  | H : ask _ = _ |- _ => unfold ask in H; inv_run H
  | H : test _ _ = _ |- _ => unfold test in H; inv_run H
  | H : modify _ _ = _ |- _ => unfold modify in H; inv_run H
  | H : cpp _ _ = _ |- _ => unfold cpp in H
  | H : rm_safe _ _ = _ |- _ => unfold rm_safe in H
  | H : settings_rm_safe _ _ = _ |- _ => unfold settings_rm_safe in H
  | H : tool_requires _ _ = _ |- _ => unfold tool_requires in H
  | H : when ?b _ _ = _ |- _ => unfold when in H; destruct b eqn:?
  | H : invoke ?cmd ?c = _ |- _ =>
      unfold invoke in H;
      destruct (run_tool (log c) cmd (files c)) as [? [?|]] eqn:?; inv_run H
  | H : option_attr ?n ?c = _ |- _ =>
      unfold option_attr in H; destruct (options c !! n) eqn:?; inv_run H
  | H : get_safe ?n _ ?c = _ |- _ =>
      unfold get_safe in H; destruct (options c !! n) eqn:?; inv_run H
  | H : del_option ?n ?c = _ |- _ =>
      unfold del_option in H; destruct (options c !! n) eqn:?;
      [inv_run H|]
  | H : del_info_option ?n ?c = _ |- _ =>
      unfold del_info_option in H; destruct (info_options c !! n) eqn:?;
      [inv_run H|]
  | H : del_missing _ _ = _ |- _ =>
      unfold del_missing in H; destruct strict_delete eqn:?
  | H : arch_text _ = _ |- _ => unfold arch_text in H; inv_run H
  | H : os_stat ?p ?c = _ |- _ =>
      unfold os_stat in H; destruct (files c !! p) eqn:?; inv_run H
  | H : os_chmod ?p _ ?c = _ |- _ =>
      unfold os_chmod in H; destruct (files c !! p) eqn:?; inv_run H
  | H : (if ?b then _ else _) _ = _ |- _ => destruct b eqn:?
  | H : (match ?x with Some _ => _ | None => _ end) _ = _ |- _ => destruct x eqn:?
  | H : bind ?m ?k ?c = _ |- _ =>
      change (bind m k c)
        with (match m c with
              | (c', Ok a) => k a c'
              | (c', Raise e) => (c', Raise e)
              end) in H;
      destruct (m c) as [? [?|?]] eqn:?; [|inv_run H]; cbv beta in *
  end.

Ltac steps := repeat step; simp_state; simplify_eq.

(** Start from what a method returns on [c]. *)
Ltac run_of m c :=
  let c' := fresh "c'" in let r := fresh "r" in let H := fresh "Hrun" in
  unfold state_after, outcome in *; destruct (m c) as [c' r] eqn:H;
  cbn [fst snd] in *.

(** * Properties *)


Section ValidateFacts.
Context {T : Tools}.

Lemma validate_run (c : conanfile) (v : string) :
  options c !! "shared" = Some v →
  validate c =
    (c, if is_msvc (settings c) && option_truth v
        then Raise (ConanInvalidConfiguration (msvc_shared_message c))
        else Ok tt).
Proof.
  intros Hv. unfold validate, bind, test, option_attr, ask, raise, ret.
  destruct (is_msvc (settings c)); simpl; [|done].
  rewrite Hv. by destruct (option_truth v).
Qed.

(** C1: with the [shared] option present, [validate] raises
    [ConanInvalidConfiguration] exactly when the toolchain is MSVC and
    [shared] is true, and returns normally otherwise; it runs no tool and
    leaves the recipe object as it was, and when it raises, a [build]
    sequenced after it runs nothing: no configure and no make is logged. *)
Theorem validate_rejects_msvc_shared (c : conanfile) :
  is_Some (options c !! "shared") →
  ((∃ msg, outcome validate c = Raise (ConanInvalidConfiguration msg))
     ↔ is_msvc (settings c) = true ∧ shared_enabled c = true)
  ∧ (¬ (is_msvc (settings c) = true ∧ shared_enabled c = true)
     → outcome validate c = Ok tt)
  ∧ state_after validate c = c
  ∧ (is_msvc (settings c) = true ∧ shared_enabled c = true →
     outcome (validate ;; build) c
       = Raise (ConanInvalidConfiguration (msvc_shared_message c))
     ∧ state_after (validate ;; build) c = c
     ∧ commands (state_after (validate ;; build) c) = commands c).
Proof.
  intros [v Hv]. unfold outcome, state_after, bind, shared_enabled.
  rewrite (validate_run c v Hv), Hv. simpl.
  destruct (is_msvc (settings c)), (option_truth v); simpl.
  all: split; [split; [intros [msg Hm]; by inversion Hm || done | intros [? ?]; by eauto] |].
  all: split; [intros Hn; try done; by destruct Hn |].
  all: split; [done |].
  all: intros [? ?]; done.
Qed.

End ValidateFacts.


Lemma validate_rejects_msvc_shared_witness :
  is_Some (options msvc_shared !! "shared")
  ∧ outcome (validate (T := quiet_tools) ;; build (T := quiet_tools)) msvc_shared
    = Raise (ConanInvalidConfiguration (msvc_shared_message msvc_shared)).
Proof.
  assert (Hs : is_Some (options msvc_shared !! "shared")) by (exists "True"; reflexivity).
  split; [exact Hs|].
  destruct (validate_rejects_msvc_shared (T := quiet_tools) msvc_shared Hs)
    as (_ & _ & _ & Hb).
  apply Hb. split; vm_compute; reflexivity.
Defined.

Section BuildFacts.
Context {T : Tools}.


(** C6: with the [run_checks] option present, the tools [build] invokes are
    an initial part of: apply patches, configure, make, make check, in this
    order and each at most once, so configure comes before make and the check
    target after make; make check is invoked only if [run_checks] is true,
    and once make has succeeded it is invoked if [run_checks] is true; when
    [build] returns normally the tools are exactly the first three, followed
    by make check exactly when [run_checks] is true; and [build] does return
    normally when no tool raises and, on Apple systems, the configure script
    is there after the patches. *)
Theorem build_configure_make_check (c : conanfile) (v : string) :
  options c !! "run_checks" = Some v →
  ∃ l, log (state_after build c) = (log c ++ l)%list
     ∧ l.*1 `prefix_of` all_commands
     ∧ (CmdMake (Some "check") ∈ l.*1 → option_truth v = true)
     ∧ ((CmdMake None, None) ∈ l → option_truth v = true →
        CmdMake (Some "check") ∈ l.*1)
     ∧ (outcome build c = Ok tt →
        l.*1 = ([CmdApplyPatches; CmdConfigure; CmdMake None]
                ++ if option_truth v then [CmdMake (Some "check")] else [])%list)
     ∧ ((∀ h cmd fs, (run_tool h cmd fs).2 = None) →
        (is_apple_os (settings c) = true →
         is_Some ((run_tool (log c) CmdApplyPatches (files c)).1
                    !! path_join (source_folder c) "configure")) →
        outcome build c = Ok tt).
Proof.
  intros Hv. run_of build c. unfold build, _patch_sources in Hrun.
  steps.
  all: eexists; split;
    [rewrite <- ?(assoc_L (++)); cbn [app]; reflexivity|].
  all: cbn [fmap list_fmap fst app].
  all: split_and!.
  all: lazymatch goal with
    | |- _ `prefix_of` _ => by eexists
    | |- _ ∈ _ → _ = true → _ =>
        intros Hin Ht; first [congruence | set_solver]
    | |- _ ∈ _ → _ => try done; set_solver
    | |- _ = Ok tt → _ =>
        try done; intros _;
        match goal with H : option_truth _ = _ |- _ => by rewrite H end
    | |- _ => intros Hnever Hfile; try done
    end.
  all: try match goal with
    | H : run_tool ?h ?cmd ?fs = (_, Some _) |- _ =>
        pose proof (Hnever h cmd fs) as Hn; rewrite H in Hn; discriminate Hn
    end.
  destruct Hfile as [mode Hmode]; [done|].
  cbn [fst] in Hmode. congruence.
Qed.

(** C7: in [source] and in [build], whenever a tool raised, that invocation
    is the last one the method made and what the tool raised is what the
    method raises: nothing catches the error, nothing is run after it; and no
    tool is invoked twice, so nothing is retried. *)
Theorem tool_errors_propagate (c : conanfile) :
  (∃ l, log (state_after source c) = (log c ++ l)%list
      ∧ NoDup l.*1
      ∧ ∀ cmd e, (cmd, Some e) ∈ l →
          outcome source c = Raise e ∧ last l = Some (cmd, Some e))
  ∧ (∃ l, log (state_after build c) = (log c ++ l)%list
      ∧ NoDup l.*1
      ∧ ∀ cmd e, (cmd, Some e) ∈ l →
          outcome build c = Raise e ∧ last l = Some (cmd, Some e)).
Proof.
  split.
  - run_of source c. unfold source in Hrun. steps.
    all: eexists; split;
      [first [by rewrite (right_id_L [] (++)) | reflexivity]|].
    all: split; [cbn; repeat constructor; set_solver|].
    all: intros cmd e' Hin; set_unfold; naive_solver.
  - run_of build c. unfold build, _patch_sources in Hrun. steps.
    all: eexists; split;
      [rewrite <- ?(assoc_L (++)); cbn [app]; reflexivity|].
    all: split; [cbn; repeat (constructor; [set_solver|]); constructor|].
    all: intros cmd e' Hin; set_unfold; naive_solver.
Qed.

Lemma S_IEXEC_bits (i : Z) : (0 ≤ i)%Z → Z.testbit S_IEXEC i = bool_decide (i = 6).
Proof.
  intros Hi. change S_IEXEC with (2 ^ 6). rewrite Z.pow2_bits_eqb by lia.
  destruct (Z.eqb_spec 6 i); case_bool_decide; (done || lia).
Qed.

Lemma permission_bits (i : Z) : (0 ≤ i)%Z → Z.testbit 4095 i = bool_decide (i < 12)%Z.
Proof.
  intros Hi. change 4095 with (Z.ones 12). case_bool_decide.
  - apply Z.ones_spec_low. lia.
  - apply Z.ones_spec_high. lia.
Qed.

(** Setting the mode to the old mode with [S_IEXEC] or-ed in yields just
    that: the bit lies among the permission bits. *)
Lemma chmod_adds_exec (old : Z) :
  chmod_mode old (Z.lor old S_IEXEC) = Z.lor old S_IEXEC.
Proof.
  unfold chmod_mode. apply Z.bits_inj'. intros i Hi.
  rewrite !Z.lor_spec, !Z.land_spec, Z.lor_spec, Z.lnot_spec by done.
  rewrite permission_bits, S_IEXEC_bits by done.
  destruct (Z.testbit old i); repeat case_bool_decide; (done || lia).
Qed.

Lemma patch_sources_apple (c c1 : conanfile) (mode : Z) :
  invoke CmdApplyPatches c = (c1, Ok tt) →
  is_apple_os (settings c) = true →
  files c1 !! path_join (source_folder c) "configure" = Some mode →
  _patch_sources c
    = (with_files (<[path_join (source_folder c) "configure" := Z.lor mode S_IEXEC]>) c1,
       Ok tt).
Proof.
  intros Hpatch Happle Hmode. steps.
  destruct (_patch_sources c) as [c' r] eqn:Hrun.
  unfold _patch_sources in Hrun. steps.
  by rewrite chmod_adds_exec.
Qed.

Lemma patch_sources_other (c c1 : conanfile) :
  invoke CmdApplyPatches c = (c1, Ok tt) →
  is_apple_os (settings c) = false →
  _patch_sources c = (c1, Ok tt).
Proof.
  intros Hpatch Happle. steps.
  destruct (_patch_sources c) as [c' r] eqn:Hrun.
  unfold _patch_sources in Hrun. by steps.
Qed.

Lemma patch_sources_commands (c : conanfile) :
  commands (state_after _patch_sources c) = (commands c ++ [CmdApplyPatches])%list.
Proof.
  run_of _patch_sources c. unfold _patch_sources in Hrun. unfold commands.
  steps; by rewrite ?fmap_app.
Qed.

Lemma exec_bit_only (mode : Z) :
  Z.testbit (Z.lor mode S_IEXEC) 6 = true
  ∧ (∀ i, (0 ≤ i)%Z → i ≠ 6 →
       Z.testbit (Z.lor mode S_IEXEC) i = Z.testbit mode i).
Proof.
  split.
  - rewrite Z.lor_spec, S_IEXEC_bits by done.
    rewrite bool_decide_eq_true_2 by done. apply orb_true_r.
  - intros i Hi Hne. rewrite Z.lor_spec, S_IEXEC_bits by done.
    rewrite bool_decide_eq_false_2 by done. apply orb_false_r.
Qed.

(** After [_patch_sources], [build] invokes configure on the files as
    [_patch_sources] left them. *)
Lemma build_configures_patched (c c1 : conanfile) :
  _patch_sources c = (c1, Ok tt) →
  (CmdConfigure, (run_tool (log c1) CmdConfigure (files c1)).2)
    ∈ log (state_after build c).
Proof.
  intros Hp. run_of build c. unfold build in Hrun. step; simplify_eq.
  steps.
  all: cbn [snd]; rewrite !elem_of_app, !list_elem_of_singleton; tauto.
Qed.

(** C8: once the patches are applied, on Apple systems [_patch_sources] sets
    the mode of the configure script to its mode or-ed with [S_IEXEC] and
    touches nothing else: bit 6 is set and every other bit is as it was; on
    other systems it changes nothing.  It invokes no tool but the patches,
    and the configure that [build] then invokes runs on the files with the
    new mode. *)
Theorem patch_sources_adds_exec_bit (c c1 : conanfile) :
  invoke CmdApplyPatches c = (c1, Ok tt) →
  let configure_file := path_join (source_folder c) "configure" in
  (is_apple_os (settings c) = true →
   ∀ mode, files c1 !! configure_file = Some mode →
     _patch_sources c
       = (with_files (<[configure_file := Z.lor mode S_IEXEC]>) c1, Ok tt)
     ∧ Z.testbit (Z.lor mode S_IEXEC) 6 = true
     ∧ (∀ i, (0 ≤ i)%Z → i ≠ 6 →
          Z.testbit (Z.lor mode S_IEXEC) i = Z.testbit mode i)
     ∧ (CmdConfigure,
        (run_tool (log c1) CmdConfigure
           (<[configure_file := Z.lor mode S_IEXEC]> (files c1))).2)
       ∈ log (state_after build c))
  ∧ (is_apple_os (settings c) = false → _patch_sources c = (c1, Ok tt))
  ∧ commands (state_after _patch_sources c) = (commands c ++ [CmdApplyPatches])%list.
Proof.
  intros Hpatch configure_file. split_and!.
  - intros Happle mode Hmode.
    pose proof (patch_sources_apple c c1 mode Hpatch Happle Hmode) as Hp.
    split_and!; [exact Hp | apply exec_bit_only | apply exec_bit_only |].
    apply (build_configures_patched c _ Hp).
  - by apply patch_sources_other.
  - apply patch_sources_commands.
Qed.

End BuildFacts.



Lemma build_configure_make_check_witness :
  options linux_defaults !! "run_checks" = Some "True"
  ∧ ∃ l, log (state_after (build (T := quiet_tools)) linux_defaults)
           = (log linux_defaults ++ l)%list
       ∧ l.*1 `prefix_of` all_commands.
Proof.
  assert (H : options linux_defaults !! "run_checks" = Some "True")
    by (vm_compute; reflexivity).
  split; [exact H|].
  destruct (build_configure_make_check (T := quiet_tools) linux_defaults "True" H)
    as (l & Hl & Hp & _).
  exists l. split; assumption.
Defined.

Lemma tool_errors_propagate_witness :
  outcome (build (T := configure_fails)) linux_defaults
  = Raise (ToolError "configure: error: no acceptable C compiler").
Proof.
  destruct (tool_errors_propagate (T := configure_fails) linux_defaults)
    as (_ & l & Hl & _ & Hp).
  vm_compute in Hl. subst l.
  apply (Hp CmdConfigure). apply list_elem_of_further, list_elem_of_here.
Defined.

Lemma patch_sources_adds_exec_bit_witness :
  is_apple_os (Tools := quiet_tools) (settings macos_defaults) = true
  ∧ _patch_sources (T := quiet_tools) macos_defaults
    = (with_files (<["src/configure" := Z.lor 33188 S_IEXEC]>)
         (state_after (invoke (T := quiet_tools) CmdApplyPatches) macos_defaults),
       Ok tt).
Proof.
  assert (Ha : is_apple_os (Tools := quiet_tools) (settings macos_defaults) = true)
    by (vm_compute; reflexivity).
  split; [exact Ha|].
  destruct (patch_sources_adds_exec_bit (T := quiet_tools) macos_defaults
              (state_after (invoke (T := quiet_tools) CmdApplyPatches) macos_defaults))
    as (Happle & _).
  - vm_compute. reflexivity.
  - destruct (Happle Ha 33188) as (Hp & _); [vm_compute; reflexivity|].
    exact Hp.
Defined.

(** ** Options and package identity *)

Section PackageIdFacts.
Context {T : Tools}.

(** C5: two configurations whose [self.info] options both hold [run_checks]
    and agree on every other option have the same options after
    [package_id], hence the same package ID when their settings agree:
    [package_id] removes [run_checks] and leaves every other option as it
    was. *)
Theorem package_id_ignores_run_checks (c1 c2 : conanfile) (v1 v2 : string) :
  info_options c1 !! "run_checks" = Some v1 →
  info_options c2 !! "run_checks" = Some v2 →
  (∀ k, k ≠ "run_checks" → info_options c1 !! k = info_options c2 !! k) →
  outcome package_id c1 = Ok tt
  ∧ outcome package_id c2 = Ok tt
  ∧ info_options (state_after package_id c1)
    = info_options (state_after package_id c2)
  ∧ info_options (state_after package_id c1) !! "run_checks" = None
  ∧ (∀ k, k ≠ "run_checks" →
       info_options (state_after package_id c1) !! k = info_options c1 !! k)
  ∧ (settings c1 = settings c2 →
     ∀ digest, package_ID digest (state_after package_id c1)
               = package_ID digest (state_after package_id c2)).
Proof.
  intros H1 H2 Hsame.
  unfold outcome, state_after, package_id, del_info_option, package_ID.
  rewrite H1, H2. cbn [fst snd info_options settings with_info_options].
  assert (Heq : delete "run_checks" (info_options c1)
                = delete "run_checks" (info_options c2)).
  { apply map_eq. intros k. rewrite !lookup_delete.
    case_decide; [done|]. by apply Hsame. }
  split_and!; try done.
  - apply lookup_delete_eq.
  - intros k Hk. by apply lookup_delete_ne.
  - intros Hs digest. by rewrite Heq, Hs.
Qed.

End PackageIdFacts.

Lemma package_id_ignores_run_checks_witness :
  info_options (state_after (package_id (T := quiet_tools)) linux_defaults)
  = info_options (state_after (package_id (T := quiet_tools)) no_checks).
Proof.
  destruct (package_id_ignores_run_checks (T := quiet_tools)
              linux_defaults no_checks "True" "False")
    as (_ & _ & H & _).
  - vm_compute. reflexivity.
  - vm_compute. reflexivity.
  - intros k Hk. unfold linux_defaults, no_checks, fresh.
    cbn [info_options]. symmetry. by apply lookup_insert_ne.
  - exact H.
Defined.

Section OptionFacts.
Context {T : Tools}.

Lemma package_id_keeps_options : keeps_options package_id.
Proof. intros c. run_of package_id c. unfold package_id in Hrun. by steps. Qed.

Lemma validate_keeps_options : keeps_options validate.
Proof. intros c. run_of validate c. unfold validate in Hrun. by steps. Qed.

Lemma build_requirements_keeps_options : keeps_options build_requirements.
Proof.
  intros c. run_of build_requirements c. unfold build_requirements in Hrun.
  by steps.
Qed.

Lemma source_keeps_options : keeps_options source.
Proof. intros c. run_of source c. unfold source in Hrun. by steps. Qed.

Lemma generate_keeps_options : keeps_options generate.
Proof. intros c. run_of generate c. unfold generate in Hrun. by steps. Qed.

Lemma build_keeps_options : keeps_options build.
Proof.
  intros c. run_of build c. unfold build, _patch_sources in Hrun. by steps.
Qed.

Lemma package_keeps_options : keeps_options package.
Proof. intros c. run_of package c. unfold package in Hrun. by steps. Qed.

Lemma package_info_keeps_options : keeps_options package_info.
Proof.
  intros c. run_of package_info c. unfold package_info in Hrun. by steps.
Qed.

Lemma later_methods_keep_options (m : M unit) :
  m ∈ later_methods → keeps_options m.
Proof.
  unfold later_methods. rewrite !elem_of_cons, elem_of_nil.
  intros [->|[->|[->|[->|[->|[->|[->|[->|[]]]]]]]]].
  - apply package_id_keeps_options.
  - apply validate_keeps_options.
  - apply build_requirements_keeps_options.
  - apply source_keeps_options.
  - apply generate_keeps_options.
  - apply build_keeps_options.
  - apply package_keeps_options.
  - apply package_info_keeps_options.
Qed.

End OptionFacts.

Section FpicFacts.
Context {T : Tools}.

Lemma config_options_fpic (c : conanfile) :
  let c1 := state_after config_options c in
  settings c1 = settings c
  ∧ options c1 !! "shared" = options c !! "shared"
  ∧ options c1 !! "fPIC"
    = (if setting_is "os" "Windows" c then None else options c !! "fPIC").
Proof.
  cbv zeta. unfold setting_is.
  run_of config_options c. unfold config_options in Hrun. steps.
  all: repeat match goal with
         | H : bool_decide _ = _ |- _ => rewrite H
         end.
  all: split_and!; try done.
  all: rewrite ?lookup_delete_ne by (intros ?; discriminate); try done.
  all: by rewrite lookup_delete_eq.
Qed.

Lemma configure_fpic (c1 : conanfile) :
  let c2 := state_after configure c1 in
  settings c2 !! "os" = settings c1 !! "os"
  ∧ options c2 !! "shared" = options c1 !! "shared"
  ∧ options c2 !! "fPIC"
    = (if shared_enabled c1 then None else options c1 !! "fPIC").
Proof.
  cbv zeta. unfold shared_enabled.
  run_of configure c1. unfold configure in Hrun. steps.
  all: repeat match goal with
         | H : options _ !! "shared" = _ |- _ => rewrite H
         | H : option_truth _ = _ |- _ => rewrite H
         end.
  all: split_and!; try done.
  all: rewrite ?lookup_delete_ne by (intros ?; discriminate); try done.
  all: by rewrite lookup_delete_eq.
Qed.

Lemma config_options_returns (c : conanfile) :
  strict_delete = false → outcome config_options c = Ok tt.
Proof.
  intros Hlax. run_of config_options c. unfold config_options in Hrun.
  steps; congruence.
Qed.

(** C9: on the recipe object that [configure] leaves when run after
    [config_options], however the two ended, the [fPIC] option is absent if
    [shared] is true or the OS is Windows, and otherwise is as it was at the
    start; [shared] and the OS are as at the start.  Under Conan 1.x
    [config_options] always returns, so [configure] does run.  No method
    called later writes the options, so [fPIC] stays absent. *)
Theorem fpic_absent_after_configure (c : conanfile) :
  let c2 := state_after configure (state_after config_options c) in
  options c2 !! "fPIC"
    = (if shared_enabled c || setting_is "os" "Windows" c then None
       else options c !! "fPIC")
  ∧ shared_enabled c2 = shared_enabled c
  ∧ setting_is "os" "Windows" c2 = setting_is "os" "Windows" c
  ∧ (shared_enabled c2 = true ∨ setting_is "os" "Windows" c2 = true →
     options c2 !! "fPIC" = None)
  ∧ (strict_delete = false → outcome config_options c = Ok tt)
  ∧ (∀ m c', m ∈ later_methods →
       options (state_after m c') = options c'
       ∧ (options c' !! "fPIC" = None →
          options (state_after m c') !! "fPIC" = None)).
Proof.
  cbv zeta.
  destruct (config_options_fpic c) as (Hs1 & Hsh1 & Hpic1).
  destruct (configure_fpic (state_after config_options c)) as (Hos2 & Hsh2 & Hpic2).
  set (c1 := state_after config_options c) in *.
  set (c2 := state_after configure c1) in *.
  assert (Hshared : shared_enabled c2 = shared_enabled c).
  { unfold shared_enabled. by rewrite Hsh2, Hsh1. }
  assert (Hshared1 : shared_enabled c1 = shared_enabled c).
  { unfold shared_enabled. by rewrite Hsh1. }
  assert (Hwin : setting_is "os" "Windows" c2 = setting_is "os" "Windows" c).
  { unfold setting_is. by rewrite Hos2, Hs1. }
  assert (Hpic : options c2 !! "fPIC"
                 = (if shared_enabled c || setting_is "os" "Windows" c then None
                    else options c !! "fPIC")).
  { rewrite Hpic2, Hshared1, Hpic1.
    by destruct (shared_enabled c), (setting_is "os" "Windows" c). }
  split_and!; try done.
  - rewrite Hshared, Hwin, Hpic.
    intros [->| ->]; [done|]. by rewrite orb_true_r.
  - apply config_options_returns.
  - intros m c' Hm. pose proof (later_methods_keep_options m Hm c') as Hk.
    split; [exact Hk|]. by rewrite Hk.
Qed.

End FpicFacts.

Lemma fpic_absent_after_configure_witness :
  options (state_after (configure (T := quiet_tools))
             (state_after (config_options (T := quiet_tools)) shared_linux))
    !! "fPIC" = None.
Proof.
  destruct (fpic_absent_after_configure (T := quiet_tools) shared_linux)
    as (_ & _ & _ & Hf & _).
  apply Hf. left. vm_compute. reflexivity.
Defined.

(** ** Published metadata *)

Lemma component_of_on_component (name : string) (f : component → component)
    (i : cpp_info_t) :
  component_of name (on_component name f i) = f (component_of name i).
Proof.
  unfold component_of at 1, on_component. cbn [components].
  by rewrite lookup_insert_eq.
Qed.

Lemma component_of_on_other (name other : string) (f : component → component)
    (i : cpp_info_t) :
  other ≠ name →
  component_of name (on_component other f i) = component_of name i.
Proof.
  intros Hne. unfold component_of, on_component. cbn [components].
  by rewrite lookup_insert_ne.
Qed.

Lemma libgmp_established (i : cpp_info_t) :
  libgmp_published
    (on_component "libgmp" (comp_set_libs ["gmp"])
       (on_component "libgmp" (comp_set_property "pkg_config_name" "gmp")
          (set_property "pkg_config_name" "gmp-all-do-not-use" i))).
Proof.
  unfold libgmp_published. rewrite !component_of_on_component.
  split_and!.
  - unfold on_component at 1. cbn [components]. rewrite lookup_insert_eq. eauto.
  - done.
  - cbn [comp_set_libs comp_set_property properties]. apply lookup_insert_eq.
  - cbn [on_component set_property cpp_properties]. apply lookup_insert_eq.
Qed.

Lemma libgmp_kept_by_other (other : string) (f : component → component)
    (i : cpp_info_t) :
  other ≠ "libgmp" →
  libgmp_published i → libgmp_published (on_component other f i).
Proof.
  intros Hne (H1 & H2 & H3 & H4). unfold libgmp_published.
  rewrite component_of_on_other by done. split_and!; try done.
  unfold on_component. cbn [components]. by rewrite lookup_insert_ne.
Qed.

Lemma libgmp_kept_by_name (k v : string) (i : cpp_info_t) :
  libgmp_published i →
  libgmp_published (on_component "libgmp" (comp_set_name k v) i).
Proof.
  intros (H1 & H2 & H3 & H4). unfold libgmp_published.
  rewrite component_of_on_component. split_and!; try done.
  unfold on_component. cbn [components]. rewrite lookup_insert_eq. eauto.
Qed.

Lemma libgmp_kept_by_set_name (k v : string) (i : cpp_info_t) :
  libgmp_published i → libgmp_published (set_name k v i).
Proof. done. Qed.

(** The first three assignments of [package_info] are unconditional:
    however it ends, the [cpp_info] it leaves has a [libgmp] component with
    libs exactly [gmp] and pkg_config name gmp, and the top-level pkg_config
    name gmp-all-do-not-use. *)
Lemma package_info_assigns_libgmp (c : conanfile) :
  let i := cpp_info (state_after package_info c) in
  is_Some (components i !! "libgmp")
  ∧ libs (component_of "libgmp" i) = ["gmp"]
  ∧ properties (component_of "libgmp" i) !! "pkg_config_name" = Some "gmp"
  ∧ cpp_properties i !! "pkg_config_name" = Some "gmp-all-do-not-use".
Proof.
  cbv zeta. run_of package_info c. unfold package_info in Hrun. steps.
  all: match goal with |- is_Some (components ?i !! _) ∧ _ =>
         change (libgmp_published i) end.
  all: repeat first
         [ apply libgmp_kept_by_other; [by intros ?|]
         | apply libgmp_kept_by_name
         | apply libgmp_kept_by_set_name ].
  all: apply libgmp_established.
Qed.

(** ** Where the code departs from its own declarations *)

(** No option set Conan can hand over has one of the names the methods read
    with the [enable_] prefix. *)
Lemma admissible_has_no_enable_options (o : gmap string string) :
  admissible o = true →
  o !! "enable_cxx" = None ∧ o !! "enable_fat" = None
  ∧ o !! "enable_assembly" = None.
Proof.
  unfold admissible. intros H. apply andb_true_iff in H as [Hdom _].
  apply bool_decide_eq_true in Hdom.
  split_and!; apply not_elem_of_dom; rewrite Hdom;
    apply (bool_decide_unpack _); vm_compute; exact I.
Qed.

(** With no [enable_cxx] option, [package_info] raises at its first read of
    it and the [gmpxx] component is as it was. *)
Lemma package_info_without_enable_cxx (c : conanfile) :
  options c !! "enable_cxx" = None →
  outcome package_info c
    = Raise (ConanException (option_not_exist_msg "enable_cxx"))
  ∧ components (cpp_info (state_after package_info c)) !! "gmpxx"
    = components (cpp_info c) !! "gmpxx".
Proof.
  intros Hnone. run_of package_info c. unfold package_info in Hrun. steps.
  split; [done|].
  unfold on_component, set_property. cbn [components].
  by rewrite !lookup_insert_ne.
Qed.

(** C4: with the declared C++ option [cxx] set to True, [package_info]
    raises because it reads [enable_cxx], which is not declared, and the
    metadata it leaves has no [gmpxx] component. *)
Theorem package_info_ignores_cxx_option :
  admissible (options cxx_enabled) = true
  ∧ options cxx_enabled !! "cxx" = Some "True"
  ∧ outcome package_info cxx_enabled
    = Raise (ConanException "option 'enable_cxx' doesn't exist")
  ∧ components (cpp_info (state_after package_info cxx_enabled)) !! "gmpxx"
    = None.
Proof. split_and!; vm_compute; reflexivity. Qed.

(** C10: for every option set made of the declared options, [package_info]
    does not return: it raises at its first read of [enable_cxx], so no
    metadata is published; the [libgmp] assignments made before are all it
    leaves, and there is no [gmpxx] component beside what was there. *)
Theorem package_info_raises_on_declared_options (c : conanfile) :
  admissible (options c) = true →
  outcome package_info c
    = Raise (ConanException (option_not_exist_msg "enable_cxx"))
  ∧ libgmp_published (cpp_info (state_after package_info c))
  ∧ components (cpp_info (state_after package_info c)) !! "gmpxx"
    = components (cpp_info c) !! "gmpxx".
Proof.
  intros Hadm.
  destruct (admissible_has_no_enable_options _ Hadm) as (Hcxx & _ & _).
  destruct (package_info_without_enable_cxx c Hcxx) as (Hraise & Hxx).
  split_and!; [exact Hraise | | exact Hxx].
  apply package_info_assigns_libgmp.
Qed.

Lemma package_info_raises_on_declared_options_witness :
  admissible (options linux_defaults) = true
  ∧ outcome package_info linux_defaults
    = Raise (ConanException (option_not_exist_msg "enable_cxx")).
Proof.
  assert (H : admissible (options linux_defaults) = true)
    by (vm_compute; reflexivity).
  split; [exact H|].
  apply (package_info_raises_on_declared_options linux_defaults H).
Defined.

Section DeclarationFacts.
Context {T : Tools}.

Lemma config_options_keeps_fat (c : conanfile) :
  options (state_after config_options c) !! "fat" = options c !! "fat".
Proof.
  run_of config_options c. unfold config_options in Hrun. steps.
  all: by rewrite ?lookup_delete_ne by (intros ?; discriminate).
Qed.

Lemma config_options_off_x86 (c : conanfile) :
  setting_in "arch" ["x86"; "x86_64"] c = false →
  is_Some (options c !! "fPIC") →
  options c !! "enable_fat" = None →
  outcome config_options c
  = (if strict_delete
     then Raise (ConanException (option_not_exist_msg "enable_fat"))
     else Ok tt).
Proof.
  intros Harch [pic Hpic] Hfat.
  run_of config_options c. unfold config_options in Hrun. steps.
  all: try (rewrite lookup_delete_ne in * by (intros ?; discriminate)).
  all: try congruence.
  all: match goal with H : negb _ = false |- _ => rewrite Harch in H end.
  all: discriminate.
Qed.

Lemma generate_writes_after_enable_cxx (c : conanfile) :
  options c !! "enable_cxx" = None →
  outcome generate c ≠ Ok tt
  ∧ configure_args (state_after generate c) = configure_args c.
Proof. intros Hx. run_of generate c. unfold generate in Hrun. by steps. Qed.

(** C3: the recipe declares [fat], not [enable_fat].  On a non-x86
    architecture [config_options] deletes [enable_fat]: with the default
    options the [fat] option is still there afterwards, whether the deletion
    of the missing option is ignored (Conan 1.x, the method returns) or
    raises (Conan 2).  [generate] too reads [enable_fat], so with [fat] set
    to True its read still yields the fallback False; and it writes no
    configure argument, as it stops at [enable_cxx]. *)
Theorem removed_options_mismatch :
  declared "fat" = true
  ∧ declared "enable_fat" = false
  ∧ options (state_after config_options armv8_defaults) !! "fat" = Some "False"
  ∧ outcome config_options armv8_defaults
    = (if strict_delete
       then Raise (ConanException (option_not_exist_msg "enable_fat"))
       else Ok tt)
  ∧ options fat_enabled !! "fat" = Some "True"
  ∧ outcome (get_safe "enable_fat" (PBool false)) fat_enabled
    = Ok (PBool false)
  ∧ outcome generate fat_enabled ≠ Ok tt
  ∧ configure_args (state_after generate fat_enabled) = [].
Proof.
  split_and!.
  - vm_compute. reflexivity.
  - vm_compute. reflexivity.
  - rewrite config_options_keeps_fat. vm_compute. reflexivity.
  - apply config_options_off_x86.
    + vm_compute. reflexivity.
    + exists "False". vm_compute. reflexivity.
    + vm_compute. reflexivity.
  - vm_compute. reflexivity.
  - vm_compute. reflexivity.
  - apply generate_writes_after_enable_cxx. vm_compute. reflexivity.
  - etransitivity; [apply generate_writes_after_enable_cxx|];
      vm_compute; reflexivity.
Qed.

End DeclarationFacts.

(** C2: the module does not compile: the [for] target of the comprehension
    that builds [options_description] contains a call, which is not
    assignable; and [_format_description] raises on every description,
    since the bound method [description.strip] has no attribute [lsplit]. *)
Theorem class_body_does_not_load :
  assignable options_description_target = false
  ∧ compile_module = Raise (SyntaxError "cannot assign to function call")
  ∧ ∀ rest description,
      _format_description rest description
      = Raise (AttributeError "builtin_function_or_method" "lsplit").
Proof.
  split_and!; [reflexivity | reflexivity |].
  intros rest description. vm_compute. reflexivity.
Qed.

(** * Further properties of the recipe *)

(** ** Resolving the options *)

Lemma admissible_has_declared (o : gmap string string) (name : string) :
  admissible o = true → declared name = true → is_Some (o !! name).
Proof.
  unfold admissible, declared. intros H Hd.
  apply andb_true_iff in H as [Hdom _].
  apply bool_decide_eq_true in Hdom. apply bool_decide_eq_true in Hd.
  apply elem_of_dom. rewrite Hdom. by apply elem_of_list_to_set.
Qed.

Ltac lookup_other_keys :=
  repeat match goal with
    | H : context [delete ?i ?m !! ?j] |- _ =>
        rewrite (lookup_delete_ne m i j) in H by (intros ?; discriminate)
    end.

Section ResolvingFacts.
Context {T : Tools}.

(** X1: on an architecture other than x86 and x86_64, for every option set
    made of the declared options, the [fat] option is still there after
    [config_options]: the method deletes [enable_fat], which no such set
    has; it returns normally under Conan 1.x and raises under Conan 2. *)
Theorem config_options_keeps_fat_off_x86 (c : conanfile) :
  admissible (options c) = true →
  setting_in "arch" ["x86"; "x86_64"] c = false →
  is_Some (options (state_after config_options c) !! "fat")
  ∧ options (state_after config_options c) !! "fat" = options c !! "fat"
  ∧ outcome config_options c
    = (if strict_delete
       then Raise (ConanException (option_not_exist_msg "enable_fat"))
       else Ok tt).
Proof.
  intros Hadm Harch.
  destruct (admissible_has_no_enable_options _ Hadm) as (_ & Hfat & _).
  split_and!.
  - rewrite config_options_keeps_fat.
    by apply admissible_has_declared.
  - apply config_options_keeps_fat.
  - apply config_options_off_x86; [done | | done].
    by apply admissible_has_declared.
Qed.

(** X2: [config_options] changes nothing but the options, and of those only
    [fPIC] and [enable_fat]: [fPIC] is gone afterwards exactly on Windows or
    where it was missing before; and it returns normally exactly when
    deleting a missing option is ignored (Conan 1.x) or each option it has
    to delete exists. *)
Theorem config_options_effect (c : conanfile) :
  let c1 := state_after config_options c in
  c1 = with_options (λ _, options c1) c
  ∧ (∀ k, k ≠ "fPIC" → k ≠ "enable_fat" → options c1 !! k = options c !! k)
  ∧ options c1 !! "fPIC"
    = (if setting_is "os" "Windows" c then None else options c !! "fPIC")
  ∧ (outcome config_options c = Ok tt ↔
     strict_delete = false
     ∨ ((setting_is "os" "Windows" c = true → is_Some (options c !! "fPIC"))
        ∧ (setting_in "arch" ["x86"; "x86_64"] c = false →
           is_Some (options c !! "enable_fat")))).
Proof.
  cbv zeta. run_of config_options c. unfold config_options in Hrun. steps.
  all: unfold setting_is, setting_in in *.
  all: rewrite ?negb_true_iff, ?negb_false_iff in *.
  all: repeat match goal with
         | H : bool_decide _ = _ |- _ => rewrite H
         | H : match settings _ !! _ with _ => _ end = _ |- _ => rewrite H
         end.
  all: split_and!; try done.
  all: try (intros k H1 H2; by rewrite ?lookup_delete_ne by done).
  all: try (rewrite ?lookup_delete_ne by (intros ?; discriminate);
            first [apply lookup_delete_eq | done]).
  all: repeat match goal with
         | H : context [delete _ _ !! _] |- _ =>
             rewrite lookup_delete_ne in H by (intros ?; discriminate)
         end.
  all: split; intros Hx; try discriminate Hx; try done.
  all: try (first [ by left
                  | right; split; intros ?;
                    first [discriminate | by eexists] ]; fail).
  all: destruct Hx as [Hx | [H1 H2]]; try done; try congruence.
  all: solve [ destruct (H1 eq_refl) as [? ?]; congruence
             | destruct (H2 eq_refl) as [? ?]; congruence ].
Qed.

(** X3: for every option set made of the declared options, [config_options]
    followed by [configure] raises for a missing option: for [enable_fat]
    where deleting a missing option raises (Conan 2) and the architecture is
    not x86 or x86_64, and in every other case for [enable_cxx]. *)
Theorem declared_options_never_configure (c : conanfile) :
  admissible (options c) = true →
  outcome (config_options ;; configure) c
  = Raise (ConanException (option_not_exist_msg
      (if strict_delete && negb (setting_in "arch" ["x86"; "x86_64"] c)
       then "enable_fat" else "enable_cxx"))).
Proof.
  intros Hadm.
  destruct (admissible_has_no_enable_options _ Hadm) as (Hcxx & Hfat & _).
  destruct (admissible_has_declared _ "fPIC" Hadm eq_refl) as [pic Hpic].
  destruct (admissible_has_declared _ "shared" Hadm eq_refl) as [sh Hsh].
  run_of (config_options ;; configure) c.
  unfold config_options, configure in Hrun. steps.
  all: lookup_other_keys; simplify_eq.
  all: unfold setting_in.
  all: repeat match goal with
         | H : negb _ = _ |- _ => rewrite H
         | H : strict_delete = _ |- _ => rewrite H
         end.
  all: rewrite ?andb_false_r.
  all: done.
Qed.

(** X4: on an option set that has [shared] and neither [enable_fat] nor
    [enable_cxx], as every set of declared options has, [configure] raises
    for [enable_cxx]; by then it has removed [fPIC] if [shared] is true, and
    it has changed nothing else: the settings compiler.libcxx and
    compiler.cppstd are not removed. *)
Theorem configure_stops_at_enable_cxx (c : conanfile) (s : string) :
  options c !! "shared" = Some s →
  options c !! "enable_fat" = None →
  options c !! "enable_cxx" = None →
  let c2 := state_after configure c in
  outcome configure c
    = Raise (ConanException (option_not_exist_msg "enable_cxx"))
  ∧ options c2 = (if option_truth s then delete "fPIC" (options c) else options c)
  ∧ settings c2 = settings c
  ∧ c2 = with_options (λ _, options c2) c.
Proof.
  intros Hs Hfat Hcxx. cbv zeta.
  run_of configure c. unfold configure in Hrun. steps.
  all: lookup_other_keys; simplify_eq.
  all: repeat match goal with
         | H : option_truth _ = _ |- _ => rewrite H
         end.
  all: done.
Qed.

End ResolvingFacts.

Lemma config_options_keeps_fat_off_x86_witness :
  admissible (options armv8_defaults) = true
  ∧ options (state_after (config_options (T := quiet_tools)) armv8_defaults)
      !! "fat" = Some "False".
Proof.
  assert (H : admissible (options armv8_defaults) = true)
    by (vm_compute; reflexivity).
  split; [exact H|].
  destruct (config_options_keeps_fat_off_x86 (T := quiet_tools) armv8_defaults H)
    as (_ & Hfat & _).
  - vm_compute. reflexivity.
  - rewrite Hfat. vm_compute. reflexivity.
Defined.

Lemma config_options_effect_witness :
  options (state_after (config_options (T := quiet_tools)) windows_defaults)
    !! "shared"
  = options windows_defaults !! "shared".
Proof.
  destruct (config_options_effect (T := quiet_tools) windows_defaults)
    as (_ & H & _).
  apply H; intros ?; discriminate.
Defined.

Lemma declared_options_never_configure_witness :
  outcome (config_options (T := conan2_tools) ;; configure (T := conan2_tools))
    armv8_defaults
  = Raise (ConanException (option_not_exist_msg "enable_fat")).
Proof.
  apply (declared_options_never_configure (T := conan2_tools) armv8_defaults).
  vm_compute. reflexivity.
Defined.

Lemma configure_stops_at_enable_cxx_witness :
  settings (state_after (configure (T := quiet_tools)) linux_defaults)
  = settings linux_defaults.
Proof.
  destruct (configure_stops_at_enable_cxx (T := quiet_tools)
              linux_defaults "False") as (_ & _ & H & _).
  - vm_compute. reflexivity.
  - vm_compute. reflexivity.
  - vm_compute. reflexivity.
  - exact H.
Defined.

(** ** Validation, requirements, fetching and the configure arguments *)

Section FurtherFacts.
Context {T : Tools}.

(** X5: [validate] reads the [shared] option only under MSVC: with another
    compiler it returns normally whatever the options are, and under MSVC a
    missing [shared] option is an error of its own kind. *)
Theorem validate_reads_shared_only_for_msvc (c : conanfile) :
  (is_msvc (settings c) = false → validate c = (c, Ok tt))
  ∧ (is_msvc (settings c) = true → options c !! "shared" = None →
     validate c = (c, Raise (ConanException (option_not_exist_msg "shared")))).
Proof.
  split.
  - intros Hm. destruct (validate c) as [c' r] eqn:Hrun.
    unfold validate in Hrun. steps; congruence.
  - intros Hm Hs. destruct (validate c) as [c' r] eqn:Hrun.
    unfold validate in Hrun. steps; congruence.
Qed.

(** X6: [build_requirements] never raises and runs no tool.  It requires msys2
    exactly when the build machine runs Windows and no bash path is
    configured, then yasm and automake, in this order, exactly under MSVC;
    it turns [win_bash] on when the build machine runs Windows; the build
    machine is the host when there are no build settings. *)
Theorem build_requirements_effect (c : conanfile) :
  let c1 := state_after build_requirements c in
  outcome build_requirements c = Ok tt
  ∧ tool_requirements c1
    = (tool_requirements c
       ++ (if build_on_windows c && negb (bash_configured c)
           then ["msys2/cci.latest"] else [])
       ++ (if is_msvc (settings c)
           then ["yasm/1.3.0"; "automake/1.16.5"] else []))%list
  ∧ win_bash c1 = build_on_windows c || win_bash c
  ∧ c1 = with_tool_requirements (λ _, tool_requirements c1)
           (with_win_bash (λ _, win_bash c1) c)
  ∧ (settings_build c = None →
     build_on_windows c = setting_is "os" "Windows" c).
Proof.
  cbv zeta. unfold build_on_windows, bash_configured, setting_is.
  run_of build_requirements c. unfold build_requirements in Hrun. steps.
  all: rewrite ?negb_true_iff, ?negb_false_iff in *.
  all: repeat match goal with
         | H : bool_decide _ = _ |- _ => rewrite H
         | H : is_msvc _ = _ |- _ => rewrite H
         | H : match conf _ !! _ with _ => _ end = _ |- _ => rewrite H
         end.
  all: cbn [andb orb negb].
  all: split_and!; try done.
  all: try (by rewrite <- ?(assoc_L (++)), ?(right_id_L [] (++))).
  all: intros Hnone; rewrite Hnone in *; symmetry; assumption.
Qed.

(** X7: [source] fetches once, into the source folder, the archive recorded for
    the recipe's version, and ends as the fetch ends; for a version without
    an entry it raises [KeyError] and fetches nothing. *)
Theorem source_fetches_recorded_version (c : conanfile) :
  match conan_data_sources c !! version c with
  | Some url =>
      let r := (run_tool (log c) (CmdGet url (source_folder c)) (files c)).2 in
      log (state_after source c)
        = (log c ++ [(CmdGet url (source_folder c), r)])%list
      ∧ outcome source c
        = match r with Some e => Raise e | None => Ok tt end
  | None => source c = (c, Raise (KeyError (version c)))
  end.
Proof.
  destruct (conan_data_sources c !! version c) as [url|] eqn:Hurl.
  - cbv zeta. run_of source c. unfold source in Hrun. steps.
    all: match goal with H : run_tool _ _ _ = _ |- _ => rewrite H end.
    all: done.
  - destruct (source c) as [c' r] eqn:Hrun. unfold source in Hrun. by steps.
Qed.

(** X9: without an [enable_cxx] option, so for every option set made of the
    declared options, [generate] does not return normally and leaves the
    configure arguments as they were; when the tool environment is
    generated, what it raises is the missing option. *)
Theorem generate_needs_enable_cxx (c : conanfile) :
  options c !! "enable_cxx" = None →
  outcome generate c ≠ Ok tt
  ∧ configure_args (state_after generate c) = configure_args c
  ∧ ((run_tool (log c) CmdVirtualBuildEnv (files c)).2 = None →
     outcome generate c
     = Raise (ConanException (option_not_exist_msg "enable_cxx"))).
Proof.
  intros Hx. run_of generate c. unfold generate in Hrun. steps.
  all: split_and!; try done.
  all: intros Htool; cbn [snd] in Htool; discriminate Htool.
Qed.

End FurtherFacts.

Lemma generate_needs_enable_cxx_witness :
  configure_args (state_after (generate (T := quiet_tools)) linux_defaults) = [].
Proof.
  destruct (generate_needs_enable_cxx (T := quiet_tools) linux_defaults)
    as (_ & H & _).
  - vm_compute. reflexivity.
  - exact H.
Defined.

(** ** Building and packaging *)

Section PackagingFacts.
Context {T : Tools}.

(** X10: the tools [package] invokes are an initial part of: copy the two licence
    files into the licenses folder of the package, install, remove
    lib/pkgconfig and share, remove the libtool archives, fix the Apple
    install names; all seven when it returns normally.  Whenever one of
    them raised, it is the last one invoked and [package] raises the same;
    and [package] returns normally when no tool raises. *)
Theorem package_steps (c : conanfile) :
  ∃ l, log (state_after package c) = (log c ++ l)%list
     ∧ l.*1 `prefix_of` package_commands c
     ∧ (outcome package c = Ok tt → l.*1 = package_commands c)
     ∧ (∀ cmd e, (cmd, Some e) ∈ l →
          outcome package c = Raise e ∧ last l = Some (cmd, Some e))
     ∧ ((∀ h cmd fs, (run_tool h cmd fs).2 = None) →
        outcome package c = Ok tt).
Proof.
  unfold package_commands. run_of package c. unfold package in Hrun. steps.
  all: eexists; split;
    [rewrite <- ?(assoc_L (++)); cbn [app]; reflexivity|].
  all: cbn [fmap list_fmap fst app].
  all: split_and!.
  all: lazymatch goal with
    | |- _ `prefix_of` _ => by eexists
    | |- _ = Ok tt → _ => done
    | |- ∀ cmd e, _ => intros cmd e' Hin; set_unfold; naive_solver
    | |- _ => intros Hnever; try done
    end.
  all: match goal with
    | H : run_tool ?h ?cmd ?fs = (_, Some _) |- _ =>
        pose proof (Hnever h cmd fs) as Hn; rewrite H in Hn; discriminate Hn
    end.
Qed.

(** X11: on an Apple system where the patched sources have no configure script,
    [_patch_sources] raises [FileNotFoundError], and so does [build],
    without invoking configure or make. *)
Theorem build_stops_without_configure_script (c c1 : conanfile) :
  invoke CmdApplyPatches c = (c1, Ok tt) →
  is_apple_os (settings c) = true →
  files c1 !! path_join (source_folder c) "configure" = None →
  _patch_sources c
    = (c1, Raise (FileNotFoundError (path_join (source_folder c) "configure")))
  ∧ build c
    = (c1, Raise (FileNotFoundError (path_join (source_folder c) "configure")))
  ∧ commands c1 = (commands c ++ [CmdApplyPatches])%list.
Proof.
  intros Hpatch Happle Hnone.
  assert (Hp : _patch_sources c
    = (c1, Raise (FileNotFoundError (path_join (source_folder c) "configure")))).
  { steps. destruct (_patch_sources c) as [c' r] eqn:Hrun.
    unfold _patch_sources in Hrun. by steps. }
  split_and!; [exact Hp | |].
  - destruct (build c) as [c' r] eqn:Hrun. unfold build in Hrun.
    do 2 step; by simplify_eq.
  - unfold commands. steps. by rewrite fmap_app.
Qed.

Lemma config_options_quiet (c : conanfile) :
  log (state_after config_options c) = log c
  ∧ files (state_after config_options c) = files c.
Proof. run_of config_options c. unfold config_options in Hrun. by steps. Qed.

Lemma configure_quiet (c : conanfile) :
  log (state_after configure c) = log c
  ∧ files (state_after configure c) = files c.
Proof. run_of configure c. unfold configure in Hrun. by steps. Qed.

Lemma package_id_quiet (c : conanfile) :
  log (state_after package_id c) = log c
  ∧ files (state_after package_id c) = files c.
Proof. run_of package_id c. unfold package_id in Hrun. by steps. Qed.

Lemma validate_quiet (c : conanfile) :
  log (state_after validate c) = log c
  ∧ files (state_after validate c) = files c.
Proof. run_of validate c. unfold validate in Hrun. by steps. Qed.

Lemma build_requirements_quiet (c : conanfile) :
  log (state_after build_requirements c) = log c
  ∧ files (state_after build_requirements c) = files c.
Proof.
  run_of build_requirements c. unfold build_requirements in Hrun. by steps.
Qed.

Lemma package_info_quiet (c : conanfile) :
  log (state_after package_info c) = log c
  ∧ files (state_after package_info c) = files c.
Proof. run_of package_info c. unfold package_info in Hrun. by steps. Qed.

(** X13: [config_options], [configure], [package_id], [validate],
    [build_requirements] and [package_info] invoke no tool and touch no
    file, however they end. *)
Theorem bookkeeping_invokes_no_tool (m : M unit) (c : conanfile) :
  m ∈ bookkeeping_methods →
  log (state_after m c) = log c ∧ files (state_after m c) = files c.
Proof.
  unfold bookkeeping_methods. rewrite !elem_of_cons, elem_of_nil.
  intros [->|[->|[->|[->|[->|[->|[]]]]]]].
  - apply config_options_quiet.
  - apply configure_quiet.
  - apply package_id_quiet.
  - apply validate_quiet.
  - apply build_requirements_quiet.
  - apply package_info_quiet.
Qed.

End PackagingFacts.

Lemma build_stops_without_configure_script_witness :
  outcome (build (T := quiet_tools)) macos_without_configure
  = Raise (FileNotFoundError "src/configure").
Proof.
  destruct (build_stops_without_configure_script (T := quiet_tools)
              macos_without_configure
              (state_after (invoke (T := quiet_tools) CmdApplyPatches)
                 macos_without_configure))
    as (_ & H & _).
  - vm_compute. reflexivity.
  - vm_compute. reflexivity.
  - vm_compute. reflexivity.
  - unfold outcome. rewrite H. vm_compute. reflexivity.
Defined.

Lemma bookkeeping_invokes_no_tool_witness :
  log (state_after (validate (T := quiet_tools)) msvc_shared) = [].
Proof.
  destruct (bookkeeping_invokes_no_tool (T := quiet_tools)
              (validate (T := quiet_tools)) msvc_shared)
    as (H & _).
  - unfold bookkeeping_methods. do 3 apply list_elem_of_further.
    apply list_elem_of_here.
  - exact H.
Defined.

Lemma validate_reads_shared_only_for_msvc_witness :
  validate (T := quiet_tools) linux_defaults = (linux_defaults, Ok tt).
Proof.
  destruct (validate_reads_shared_only_for_msvc (T := quiet_tools) linux_defaults)
    as (H & _).
  apply H. vm_compute. reflexivity.
Defined.

Lemma build_requirements_effect_witness :
  tool_requirements (state_after (build_requirements (T := quiet_tools)) msvc_defaults)
  = ["msys2/cci.latest"; "yasm/1.3.0"; "automake/1.16.5"].
Proof.
  destruct (build_requirements_effect (T := quiet_tools) msvc_defaults)
    as (_ & H & _).
  rewrite H. vm_compute. reflexivity.
Defined.

Lemma package_steps_witness :
  outcome (package (T := quiet_tools)) linux_defaults = Ok tt.
Proof.
  destruct (package_steps (T := quiet_tools) linux_defaults)
    as (l & _ & _ & _ & _ & H).
  apply H. intros h cmd fs. reflexivity.
Defined.
